(** * OpenVPN Access Server exporter: the collection cycle

    A shallow embedding of [exporters/openvpnas_exporter.go]: the exporter
    struct and its constructor, [Describe], [Collect] and the two helpers
    [CollectVPNSummary] and [CollectSubscriptionStatistics].

    Go channels are modelled as the ordered list of values sent on them, the
    XML-RPC endpoint as a record of what a dial and each method call yield,
    [float64] values as IEEE binary64 numbers ([spec_float] at precision 53),
    and a Go panic as a distinguished outcome of the state monad. *)

From Stdlib Require Import ZArith List String Ascii Bool Lia.
From Stdlib Require Import Floats.SpecFloat.
Import ListNotations.
Local Open Scope string_scope.
Local Open Scope Z_scope.

(** ** Numbers *)

Module Float64.

Definition prec : Z := 53.
Definition emax : Z := 1024.

(** Go's [float64(n)] for an [int]: the nearest binary64 value, ties to
    even. *)
Definition of_int (n : Z) : spec_float := binary_normalize prec emax n 0 false.

(** The literals [0.0] and [1.0]. *)
Definition zero : spec_float := S754_zero false.
Definition one : spec_float := Eval vm_compute in of_int 1.

(** [exact f n]: the binary64 value [f] is the integer [n], with no
    rounding. *)
Definition exact (f : spec_float) (n : Z) : Prop :=
  match f with
  | S754_zero _ => n = 0
  | S754_finite s m e => e <= 0 /\ cond_Zopp s (Zpos m) = n * 2 ^ (- e)
  | _ => False
  end.

End Float64.

(** ** The Prometheus client library, as far as the exporter uses it *)

Definition error := string.

Inductive ValueType := CounterValue | GaugeValue | UntypedValue.

Record Desc := {
  fqName : string;
  help : string;
  variableLabels : list string;
  constLabels : list (string * string);
  err : option error
}.

Record Metric := {
  desc : Desc;
  valType : ValueType;
  val : spec_float;
  labelValues : list string
}.

(** [strings.Join] with the separator ["_"]. *)
Fixpoint join_underscore (parts : list string) : string :=
  match parts with
  | [] => EmptyString
  | [p] => p
  | p :: rest => p ++ "_" ++ join_underscore rest
  end.

Definition nonempty (s : string) : bool := negb (String.eqb s EmptyString).

Definition BuildFQName (namespace subsystem name : string) : string :=
  if String.eqb name EmptyString then EmptyString
  else if nonempty namespace && nonempty subsystem
       then join_underscore [namespace; subsystem; name]
  else if nonempty namespace then join_underscore [namespace; name]
  else if nonempty subsystem then join_underscore [subsystem; name]
  else name.

Definition in_range (lo hi c : ascii) : bool :=
  (nat_of_ascii lo <=? nat_of_ascii c)%nat && (nat_of_ascii c <=? nat_of_ascii hi)%nat.

(** A metric name is a letter, an underscore or a colon followed by letters,
    digits, underscores and colons. *)
Definition valid_name_char (first : bool) (c : ascii) : bool :=
  in_range "a" "z" c || in_range "A" "Z" c
  || Ascii.eqb c "_" || Ascii.eqb c ":"
  || (in_range "0" "9" c && negb first).

Fixpoint valid_name_tail (first : bool) (s : string) : bool :=
  match s with
  | EmptyString => true
  | String c rest => valid_name_char first c && valid_name_tail false rest
  end.

Definition IsValidMetricName (s : string) : bool :=
  nonempty s && valid_name_tail true s.

(** [prometheus.NewDesc]: an invalid name is recorded in the descriptor and
    surfaces when a metric is built from it. The exporter passes [nil] for
    both label arguments. *)
Definition NewDesc (fq hlp : string) (vars : list string)
    (consts : list (string * string)) : Desc :=
  {| fqName := fq; help := hlp; variableLabels := vars; constLabels := consts;
     err := if IsValidMetricName fq then None
            else Some (fq ++ " is not a valid metric name") |}.

(** [prometheus.NewConstMetric]: fails on a descriptor that carries an error
    and when the label values do not match the descriptor's variable
    labels. *)
Definition NewConstMetric (d : Desc) (vt : ValueType) (v : spec_float)
    (lvs : list string) : error + Metric :=
  match err d with
  | Some e => inl e
  | None =>
      if (List.length lvs =? List.length (variableLabels d))%nat
      then inr {| desc := d; valType := vt; val := v; labelValues := lvs |}
      else inl "inconsistent label cardinality"
  end.

(** ** The exporter *)

Record OpenVPNExporter := {
  xmlrpcPath : string;
  openvpnUpDesc : Desc;
  openvpnStatusUpdateTimeDesc : Desc;
  openvpnSubscriptionStatusUpdateTimeDesc : Desc;
  openvpnSubscriptionCurrentClientConnections : Desc;
  openvpnSubscriptionFallbackClientConnections : Desc;
  openvpnSubscriptionMaximumClientConnections : Desc;
  openvpnConnectedClientsDesc : Desc
}.

(** The constructor returns a pointer and an error; the pointer is [Some]
    when it is not [nil], the error is [None] when it is [nil]. *)
Definition NewOpenVPNExporter (path : string)
    : option OpenVPNExporter * option error :=
  let openvpnUpDesc := NewDesc
    (BuildFQName "openvpnas" EmptyString "up")
    "Whether scraping OpenVPN's metrics was successful."
    [] [] in
  let openvpnStatusUpdateTimeDesc := NewDesc
    (BuildFQName "openvpnas" EmptyString "status_update_time_seconds")
    "UNIX timestamp at which the OpenVPN statistics were updated."
    [] [] in
  let openvpnConnectedClientsDesc := NewDesc
    (BuildFQName "openvpnas" EmptyString "server_connected_clients")
    "Number Of Connected Clients"
    [] [] in
  let openvpnSubscriptionStatusUpdateTimeDesc := NewDesc
    (BuildFQName "openvpnas" EmptyString "subscription_status_update_time_seconds")
    "UNIX timestamp at which the OpenVPN subscription status was last updated."
    [] [] in
  let openvpnSubscriptionCurrentClientConnectionsDesc := NewDesc
    (BuildFQName "openvpnas" EmptyString "subscription_current_client_connections")
    "Number of client connections currently being used from the OpenVPN subscription."
    [] [] in
  let openvpnSubscriptionFallbackClientConnectionsDesc := NewDesc
    (BuildFQName "openvpnas" EmptyString "subscription_fallback_client_connections")
    "Number of fallback connections in use on the OpenVPN subscription."
    [] [] in
  let openvpnSubscriptionMaximumClientConnectionsDesc := NewDesc
    (BuildFQName "openvpnas" EmptyString "subscription_maximum_client_connections")
    "Maximum number of client connections allowed by the OpenVPN subscription."
    [] [] in
  (Some {|
     xmlrpcPath := path;
     openvpnUpDesc := openvpnUpDesc;
     openvpnStatusUpdateTimeDesc := openvpnStatusUpdateTimeDesc;
     openvpnConnectedClientsDesc := openvpnConnectedClientsDesc;
     openvpnSubscriptionStatusUpdateTimeDesc := openvpnSubscriptionStatusUpdateTimeDesc;
     openvpnSubscriptionCurrentClientConnections := openvpnSubscriptionCurrentClientConnectionsDesc;
     openvpnSubscriptionFallbackClientConnections := openvpnSubscriptionFallbackClientConnectionsDesc;
     openvpnSubscriptionMaximumClientConnections := openvpnSubscriptionMaximumClientConnectionsDesc
   |}, None).

(** Every field of the exporter that holds a descriptor, in declaration
    order. *)
Definition descriptors (e : OpenVPNExporter) : list Desc :=
  [ openvpnUpDesc e;
    openvpnStatusUpdateTimeDesc e;
    openvpnSubscriptionStatusUpdateTimeDesc e;
    openvpnSubscriptionCurrentClientConnections e;
    openvpnSubscriptionFallbackClientConnections e;
    openvpnSubscriptionMaximumClientConnections e;
    openvpnConnectedClientsDesc e ].

(** ** The XML-RPC endpoint *)

(** The two result shapes [Collect] decodes into. *)
Record VPNSummary := { NClients : Z }.

Record SubscriptionStatus := {
  AgentDisabled : bool;
  AgentId : string;
  CcLimit : Z;
  CurrentCc : Z;
  Error : string;
  FallbackCc : Z;
  GracePeriod : Z;
  LastSuccessfulUpdate : Z;
  LastSuccessfulUpdateAge : Z;
  MaxCc : Z;
  Name : string;
  NextUpdate : Z;
  NextUpdateIn : Z;
  Notes : list string;
  Overdraft : bool;
  Server : string;
  State : string;
  Type_ : string;
  UpdatesFailed : Z
}.

Inductive Response :=
| VPNSummaryResponse (r : VPNSummary)
| SubscriptionStatusResponse (r : SubscriptionStatus).

(** What the exporter cannot see: whether a dial on a network and address
    connects ([None]) or fails, and what the Access Server answers to a
    method, a fault or a malformed body being an error. *)
Record Remote := {
  net_Dial : string -> string -> option error;
  serve : string -> error + Response
}.

Record HttpClient := { Transport_Dial : string -> string -> option error }.

Record Client := { endpoint : string; httpClient : HttpClient }.

(** [xmlrpc.NewClient] parses the endpoint URL and dials nothing; [Collect]
    passes a constant URL and drops the error. *)
Definition NewClient (url : string) (httpc : HttpClient) : Client * option error :=
  ({| endpoint := url; httpClient := httpc |}, None).

(** Decoding a response into the result struct passed to [Call]. *)
Definition decode_VPNSummary (r : Response) : error + VPNSummary :=
  match r with
  | VPNSummaryResponse v => inr v
  | _ => inl "cannot decode response into VPNSummary"
  end.

Definition decode_SubscriptionStatus (r : Response) : error + SubscriptionStatus :=
  match r with
  | SubscriptionStatusResponse v => inr v
  | _ => inl "cannot decode response into SubscriptionStatus"
  end.

(** ** Program state and the monad of effects *)

(** [self] is the struct the receiver [e] points to; [ch] and [descs] are the
    values sent so far on the channel handed to [Collect] and to [Describe],
    oldest first; [calls] lists the methods passed to [client.Call]; [logs]
    the lines printed; [closed] counts [client.Close]. *)
Record Store := {
  self : OpenVPNExporter;
  ch : list Metric;
  descs : list Desc;
  calls : list string;
  logs : list string;
  closed : nat
}.

Inductive Outcome (A : Type) :=
| Return (a : A) (s : Store)
| Panic (msg : error) (s : Store).
Arguments Return {A} a s.
Arguments Panic {A} msg s.

Definition M (A : Type) := Store -> Outcome A.

Definition ret {A} (a : A) : M A := fun s => Return a s.

Definition bind {A B} (m : M A) (k : A -> M B) : M B :=
  fun s => match m s with
           | Return a s' => k a s'
           | Panic msg s' => Panic msg s'
           end.

Declare Scope go_scope.
Delimit Scope go_scope with go.
Notation "x <- m ;; k" := (bind m (fun x => k))
  (at level 61, m at next level, right associativity) : go_scope.
Notation "m ;; k" := (bind m (fun _ => k))
  (at level 61, right associativity) : go_scope.
Local Open Scope go_scope.

Definition final {A} (o : Outcome A) : Store :=
  match o with Return _ s => s | Panic _ s => s end.

Definition returned {A} (o : Outcome A) : bool :=
  match o with Return _ _ => true | Panic _ _ => false end.

(** [e.field] *)
Definition this : M OpenVPNExporter := fun s => Return (self s) s.

(** [ch <- m] on the metrics channel. *)
Definition send (m : Metric) : M unit := fun s =>
  Return tt {| self := self s; ch := ch s ++ [m]; descs := descs s;
               calls := calls s; logs := logs s; closed := closed s |}.

(** [ch <- d] on the descriptor channel. *)
Definition send_desc (d : Desc) : M unit := fun s =>
  Return tt {| self := self s; ch := ch s; descs := descs s ++ [d];
               calls := calls s; logs := logs s; closed := closed s |}.

Definition log_Printf (line : string) : M unit := fun s =>
  Return tt {| self := self s; ch := ch s; descs := descs s;
               calls := calls s; logs := logs s ++ [line]; closed := closed s |}.

Definition panic {A} (msg : error) : M A := fun s => Panic msg s.

(** [defer f(); body]: [f] runs when [body] returns and when it panics. *)
Definition defer {A} (f : M unit) (body : M A) : M A := fun s =>
  match body s with
  | Return a s' =>
      match f s' with Return _ s'' => Return a s'' | Panic msg s'' => Panic msg s'' end
  | Panic msg s' => Panic msg (final (f s'))
  end.

Definition MustNewConstMetric (d : Desc) (vt : ValueType) (v : spec_float) : M Metric :=
  match NewConstMetric d vt v [] with
  | inr m => ret m
  | inl e => panic e
  end.

Section Cycle.

Variable remote : Remote.

(** [client.Call(method, nil, result)]: the request goes over a connection
    obtained from the transport's dialer; the answer is decoded into
    [result]. *)
Definition Call {T} (client : Client) (method : string)
    (decode : Response -> error + T) : M (error + T) := fun s =>
  let s' := {| self := self s; ch := ch s; descs := descs s;
               calls := calls s ++ [method]; logs := logs s;
               closed := closed s |} in
  match Transport_Dial (httpClient client) "tcp" "localhost:80" with
  | Some e => Return (inl e) s'
  | None =>
      match serve remote method with
      | inl e => Return (inl e) s'
      | inr r => Return (decode r) s'
      end
  end.

Definition Close (client : Client) : M unit := fun s =>
  Return tt {| self := self s; ch := ch s; descs := descs s;
               calls := calls s; logs := logs s; closed := S (closed s) |}.

Definition Describe : M unit :=
  e <- this ;;
  send_desc (openvpnUpDesc e).

Definition CollectVPNSummary (client : Client) : M (option error) :=
  e <- this ;;
  result <- Call client "GetVPNSummary" decode_VPNSummary ;;
  match result with
  | inl err =>
      log_Printf ("Failed to call GetVPNSummary: " ++ err) ;;
      ret (Some err)
  | inr result =>
      m <- MustNewConstMetric (openvpnConnectedClientsDesc e) GaugeValue
             (Float64.of_int (NClients result)) ;;
      send m ;;
      ret None
  end.

Definition CollectSubscriptionStatistics (client : Client) : M (option error) :=
  e <- this ;;
  result <- Call client "GetSubscriptionStatus" decode_SubscriptionStatus ;;
  match result with
  | inl err =>
      log_Printf ("Failed to call GetSubscriptionStatus: " ++ err) ;;
      ret (Some err)
  | inr result =>
      m <- MustNewConstMetric (openvpnSubscriptionStatusUpdateTimeDesc e)
             GaugeValue (Float64.of_int (LastSuccessfulUpdate result)) ;;
      send m ;;
      m <- MustNewConstMetric (openvpnSubscriptionCurrentClientConnections e)
             GaugeValue (Float64.of_int (CurrentCc result)) ;;
      send m ;;
      m <- MustNewConstMetric (openvpnSubscriptionMaximumClientConnections e)
             GaugeValue (Float64.of_int (MaxCc result)) ;;
      send m ;;
      m <- MustNewConstMetric (openvpnSubscriptionFallbackClientConnections e)
             GaugeValue (Float64.of_int (FallbackCc result)) ;;
      send m ;;
      ret None
  end.

Definition Collect : M unit :=
  e <- this ;;
  let dialer := fun _ _ : string => net_Dial remote "unix" (xmlrpcPath e) in
  let httpc := {| Transport_Dial := dialer |} in
  let client := fst (NewClient "http://localhost/" httpc) in
  defer (Close client) (
    err <- CollectVPNSummary client ;;
    match err with
    | Some _ =>
        m <- MustNewConstMetric (openvpnUpDesc e) GaugeValue Float64.zero ;;
        send m
    | None =>
        err <- CollectSubscriptionStatistics client ;;
        match err with
        | Some _ =>
            m <- MustNewConstMetric (openvpnUpDesc e) GaugeValue Float64.zero ;;
            send m
        | None =>
            (* It should be safe to assume that the service is up if we
               get this far *)
            m <- MustNewConstMetric (openvpnUpDesc e) GaugeValue Float64.one ;;
            send m
        end
    end).

End Cycle.

(** ** Vocabulary of the specification *)

(** The store at the start of a scrape: the framework hands [Collect] a new
    channel, and nothing has been called, logged or closed yet. *)
Definition fresh (e : OpenVPNExporter) : Store :=
  {| self := e; ch := []; descs := []; calls := []; logs := []; closed := 0 |}.

(** The client [Collect] builds for the exporter [e]. *)
Definition client_of (remote : Remote) (e : OpenVPNExporter) : Client :=
  fst (NewClient "http://localhost/"
         {| Transport_Dial := fun _ _ => net_Dial remote "unix" (xmlrpcPath e) |}).

(** What a call on that client returns: the dial error when the socket
    cannot be reached, else the endpoint's error, else the decoded body. *)
Definition answer {T} (remote : Remote) (e : OpenVPNExporter) (method : string)
    (decode : Response -> error + T) : error + T :=
  match net_Dial remote "unix" (xmlrpcPath e) with
  | Some e => inl e
  | None =>
      match serve remote method with
      | inl e => inl e
      | inr r => decode r
      end
  end.

Definition call1 (remote : Remote) (e : OpenVPNExporter) : error + VPNSummary :=
  answer remote e "GetVPNSummary" decode_VPNSummary.

Definition call2 (remote : Remote) (e : OpenVPNExporter) : error + SubscriptionStatus :=
  answer remote e "GetSubscriptionStatus" decode_SubscriptionStatus.

(** Samples are told apart by the name of their descriptor. *)
Definition bears (d : Desc) (m : Metric) : bool :=
  String.eqb (fqName (desc m)) (fqName d).

Definition is_health (e : OpenVPNExporter) (m : Metric) : bool :=
  bears (openvpnUpDesc e) m.

Definition health_samples (e : OpenVPNExporter) (l : list Metric) : list Metric :=
  filter (is_health e) l.

Definition non_health_samples (e : OpenVPNExporter) (l : list Metric) : list Metric :=
  filter (fun m => negb (is_health e m)) l.

(** A gauge sample without labels. *)
Definition gauge (d : Desc) (v : spec_float) : Metric :=
  {| desc := d; valType := GaugeValue; val := v; labelValues := [] |}.

(** The samples one scrape of [e] sends, in order. *)
Definition samples (remote : Remote) (e : OpenVPNExporter) : list Metric :=
  ch (final (Collect remote (fresh e))).

(** A descriptor from which [MustNewConstMetric] builds an unlabelled
    sample. *)
Definition usable (d : Desc) : Prop :=
  err d = None /\ variableLabels d = [].

(** [ends_with_health e v out]: the last sample of [out] is the health
    gauge with value [v], and it is the only health sample of [out]. *)
Definition ends_with_health (e : OpenVPNExporter) (v : spec_float)
    (out : list Metric) : Prop :=
  exists pre,
    out = (pre ++ [gauge (openvpnUpDesc e) v])%list
    /\ health_samples e out = [gauge (openvpnUpDesc e) v]
    /\ non_health_samples e out = pre.

(** The three ways a scrape ends. *)
Inductive Ending :=
| Call1Failed (err : error)
| Call2Failed (r1 : VPNSummary) (err : error)
| BothSucceeded (r1 : VPNSummary) (r2 : SubscriptionStatus).

Definition ending (remote : Remote) (e : OpenVPNExporter) : Ending :=
  match call1 remote e with
  | inl err => Call1Failed err
  | inr r1 =>
      match call2 remote e with
      | inl err => Call2Failed r1 err
      | inr r2 => BothSucceeded r1 r2
      end
  end.

Definition connected_clients_sample (e : OpenVPNExporter) (r1 : VPNSummary) : Metric :=
  gauge (openvpnConnectedClientsDesc e) (Float64.of_int (NClients r1)).

Definition subscription_samples (e : OpenVPNExporter) (r2 : SubscriptionStatus)
    : list Metric :=
  [ gauge (openvpnSubscriptionStatusUpdateTimeDesc e)
      (Float64.of_int (LastSuccessfulUpdate r2));
    gauge (openvpnSubscriptionCurrentClientConnections e)
      (Float64.of_int (CurrentCc r2));
    gauge (openvpnSubscriptionMaximumClientConnections e)
      (Float64.of_int (MaxCc r2));
    gauge (openvpnSubscriptionFallbackClientConnections e)
      (Float64.of_int (FallbackCc r2)) ].

Definition sent (e : OpenVPNExporter) (x : Ending) : list Metric :=
  match x with
  | Call1Failed _ => [ gauge (openvpnUpDesc e) Float64.zero ]
  | Call2Failed r1 _ =>
      [ connected_clients_sample e r1; gauge (openvpnUpDesc e) Float64.zero ]
  | BothSucceeded r1 r2 =>
      (connected_clients_sample e r1 :: subscription_samples e r2
         ++ [ gauge (openvpnUpDesc e) Float64.one ])%list
  end.

Definition called (x : Ending) : list string :=
  match x with
  | Call1Failed _ => [ "GetVPNSummary" ]
  | _ => [ "GetVPNSummary"; "GetSubscriptionStatus" ]
  end.

Definition logged (x : Ending) : list string :=
  match x with
  | Call1Failed err => [ "Failed to call GetVPNSummary: " ++ err ]
  | Call2Failed _ err => [ "Failed to call GetSubscriptionStatus: " ++ err ]
  | BothSucceeded _ _ => []
  end.

(** The value of the health sample that closes a scrape. *)
Definition health_value (x : Ending) : spec_float :=
  match x with
  | BothSucceeded _ _ => Float64.one
  | _ => Float64.zero
  end.

(** The name a sample is exposed under. *)
Definition sample_name (m : Metric) : string := fqName (desc m).

(** A computation that leaves the exporter struct as it found it, also when
    it panics. *)
Definition keeps_self {A} (m : M A) : Prop :=
  forall s, self (final (m s)) = self s.

(** ** Example endpoints *)

Definition sagent : string := "/usr/local/openvpn_as/etc/sock/sagent.localroot".

Definition summary7 : VPNSummary := {| NClients := 7 |}.

Definition subscription3 : SubscriptionStatus :=
  {| AgentDisabled := false; AgentId := "agent"; CcLimit := 10;
     CurrentCc := 3; Error := EmptyString; FallbackCc := 0; GracePeriod := 30;
     LastSuccessfulUpdate := 1700000000; LastSuccessfulUpdateAge := 12;
     MaxCc := 10; Name := "subscription"; NextUpdate := 1700000300;
     NextUpdateIn := 288; Notes := []; Overdraft := false;
     Server := "asb"; State := "SUBSCRIPTION_OK"; Type_ := "subscription";
     UpdatesFailed := 0 |}.

Definition access_server (method : string) : error + Response :=
  if String.eqb method "GetVPNSummary" then inr (VPNSummaryResponse summary7)
  else if String.eqb method "GetSubscriptionStatus"
       then inr (SubscriptionStatusResponse subscription3)
  else inl "unknown method".

(** Both calls succeed. *)
Definition healthy : Remote :=
  {| net_Dial := fun _ _ => None; serve := access_server |}.

(** The server listens on [sagent] and nowhere else. *)
Definition sagent_only : Remote :=
  {| net_Dial := fun _ address =>
       if String.eqb address sagent then None
       else Some "connect: no such file or directory";
     serve := access_server |}.

(** Nothing listens on the socket. *)
Definition unreachable : Remote :=
  {| net_Dial := fun _ _ => Some "connect: no such file or directory";
     serve := access_server |}.

(** The server answers the first call with a fault. *)
Definition summary_fault : Remote :=
  {| net_Dial := fun _ _ => None; serve := fun _ => inl "fault" |}.

(** The server answers the summary and faults on the subscription status. *)
Definition subscription_fault : Remote :=
  {| net_Dial := fun _ _ => None;
     serve := fun method =>
       if String.eqb method "GetVPNSummary"
       then inr (VPNSummaryResponse summary7) else inl "fault" |}.

(** The value inside a [Some]. *)
Definition unsome {A} (o : option A) : match o with Some _ => A | None => unit end :=
  match o with Some a => a | None => tt end.

(** The exporter built for the socket [sagent]. *)
Definition exporter0 : OpenVPNExporter := unsome (fst (NewOpenVPNExporter sagent)).

(** ** Exporters of any make *)

(** [MustNewConstMetric] as a test: it builds a sample from [d] when
    [usableb d] holds and panics with [refusal d] when it does not. *)
Definition usableb (d : Desc) : bool :=
  match err d with
  | Some _ => false
  | None => (0 =? List.length (variableLabels d))%nat
  end.

Definition refusal (d : Desc) : error :=
  match err d with
  | Some e => e
  | None => "inconsistent label cardinality"
  end.

(** The six fields [Collect] and its helpers read a descriptor from. *)
Definition collected (e : OpenVPNExporter) : list Desc :=
  [ openvpnConnectedClientsDesc e;
    openvpnSubscriptionStatusUpdateTimeDesc e;
    openvpnSubscriptionCurrentClientConnections e;
    openvpnSubscriptionMaximumClientConnections e;
    openvpnSubscriptionFallbackClientConnections e;
    openvpnUpDesc e ].

(** The descriptors a scrape builds samples from, in order, when the calls
    end as [x]. *)
Definition needed (e : OpenVPNExporter) (x : Ending) : list Desc :=
  match x with
  | Call1Failed _ => [ openvpnUpDesc e ]
  | Call2Failed _ _ => [ openvpnConnectedClientsDesc e; openvpnUpDesc e ]
  | BothSucceeded _ _ => collected e
  end.

(** Go's [int] on the build target (GOARCH=amd64) is 64 bits wide. *)
Definition is_int (n : Z) : Prop := - 2 ^ 63 <= n < 2 ^ 63.

(** Neither NaN nor an infinity. *)
Definition finite (f : spec_float) : bool :=
  match f with
  | S754_zero _ | S754_finite _ _ _ => true
  | _ => false
  end.

(** A hand-built exporter whose connected-clients descriptor has a label,
    and one whose health descriptor has an invalid name. *)
Definition labelled : OpenVPNExporter :=
  {| xmlrpcPath := sagent;
     openvpnUpDesc := openvpnUpDesc exporter0;
     openvpnStatusUpdateTimeDesc := openvpnStatusUpdateTimeDesc exporter0;
     openvpnSubscriptionStatusUpdateTimeDesc :=
       openvpnSubscriptionStatusUpdateTimeDesc exporter0;
     openvpnSubscriptionCurrentClientConnections :=
       openvpnSubscriptionCurrentClientConnections exporter0;
     openvpnSubscriptionFallbackClientConnections :=
       openvpnSubscriptionFallbackClientConnections exporter0;
     openvpnSubscriptionMaximumClientConnections :=
       openvpnSubscriptionMaximumClientConnections exporter0;
     openvpnConnectedClientsDesc :=
       NewDesc "openvpnas_server_connected_clients" "Number Of Connected Clients"
         ["common_name"] [] |}.

Definition misnamed : OpenVPNExporter :=
  {| xmlrpcPath := sagent;
     openvpnUpDesc := NewDesc "openvpnas-up" "Whether scraping succeeded." [] [];
     openvpnStatusUpdateTimeDesc := openvpnStatusUpdateTimeDesc exporter0;
     openvpnSubscriptionStatusUpdateTimeDesc :=
       openvpnSubscriptionStatusUpdateTimeDesc exporter0;
     openvpnSubscriptionCurrentClientConnections :=
       openvpnSubscriptionCurrentClientConnections exporter0;
     openvpnSubscriptionFallbackClientConnections :=
       openvpnSubscriptionFallbackClientConnections exporter0;
     openvpnSubscriptionMaximumClientConnections :=
       openvpnSubscriptionMaximumClientConnections exporter0;
     openvpnConnectedClientsDesc := openvpnConnectedClientsDesc exporter0 |}.

(** A store in which earlier scrapes and a [Describe] have left traces. *)
Definition used (e : OpenVPNExporter) : Store :=
  {| self := e;
     ch := [gauge (openvpnUpDesc e) Float64.zero];
     descs := [openvpnUpDesc e];
     calls := ["GetVPNSummary"];
     logs := ["Failed to call GetVPNSummary: fault"];
     closed := 1 |}.

(** * Proofs *)

(** ** Conversion of integers to binary64 *)

Lemma digits2_pos_size p : digits2_pos p = Pos.size p.
Proof. induction p; simpl; congruence. Qed.

Lemma digits2_pos_bound p : Zpos p < 2 ^ 53 -> Zpos (digits2_pos p) <= 53.
Proof.
  intros H. rewrite digits2_pos_size.
  destruct (Z_le_gt_dec (Zpos (Pos.size p)) 53) as [|Hgt]; [assumption|exfalso].
  pose proof (Pos.size_le p) as Hle.
  apply Pos2Z.pos_le_pos in Hle.
  rewrite Pos2Z.inj_pow, (Pos2Z.inj_xO p) in Hle.
  assert (Hmono : 2 ^ 54 <= 2 ^ Zpos (Pos.size p)).
  { apply Z.pow_le_mono_r; [reflexivity | clear - Hgt; lia]. }
  change (2 ^ 53) with 9007199254740992 in H.
  change (2 ^ 54) with 18014398509481984 in Hmono.
  generalize dependent (2 ^ Zpos (Pos.size p)). intros; lia.
Qed.

Lemma iter_xO_digits p k :
  digits2_pos (Pos.iter xO p k) = (digits2_pos p + k)%positive.
Proof.
  induction k using Pos.peano_ind.
  - simpl. lia.
  - rewrite Pos.iter_succ. simpl. rewrite IHk. lia.
Qed.

Lemma iter_xO_value p k : Zpos (Pos.iter xO p k) = Zpos p * 2 ^ Zpos k.
Proof.
  induction k using Pos.peano_ind.
  - simpl. lia.
  - rewrite Pos.iter_succ, Pos2Z.inj_xO, IHk, Pos2Z.inj_succ, Z.pow_succ_r; lia.
Qed.

(** A mantissa that already has 53 digits is not rounded. *)
Lemma binary_round_aligned s m e :
  Zpos (digits2_pos m) = 53 -> -52 <= e <= 0 ->
  binary_round_aux 53 1024 s (Zpos m) e loc_Exact = S754_finite s m e.
Proof.
  intros Hd He.
  unfold binary_round_aux, shr_fexp, fexp, emin.
  cbn [Zdigits2 shr_record_of_loc]. rewrite Hd.
  replace (Z.max (53 + e - 53) (3 - 1024 - 53) - e) with 0 by lia.
  cbn [shr shr_m loc_of_shr_record round_nearest_even Zdigits2 shr_record_of_loc].
  rewrite Hd.
  replace (Z.max (53 + e - 53) (3 - 1024 - 53) - e) with 0 by lia.
  cbn [shr shr_m].
  destruct (Z.leb_spec e (1024 - 53)); [reflexivity|lia].
Qed.

(** An integer of at most 53 digits is shifted left to 53 digits and kept
    as it is. *)
Lemma binary_round_small s p :
  Zpos (digits2_pos p) <= 53 ->
  exists m e, binary_round 53 1024 s p 0 = S754_finite s m e
              /\ e <= 0 /\ Zpos m = Zpos p * 2 ^ (- e).
Proof.
  intros Hd. unfold binary_round, fexp, emin.
  assert (Hpos : 0 < Zpos (digits2_pos p)) by lia.
  replace (Z.max (Zpos (digits2_pos p) + 0 - 53) (3 - 1024 - 53))
    with (Zpos (digits2_pos p) - 53) by lia.
  unfold shl_align.
  destruct (Zpos (digits2_pos p) - 53 - 0) as [|k|k] eqn:Hk; try lia.
  - rewrite binary_round_aligned by lia.
    exists p, 0. repeat split; lia.
  - rewrite binary_round_aligned.
    + exists (Pos.iter xO p k), (Zpos (digits2_pos p) - 53).
      split; [reflexivity|]. split; [lia|].
      rewrite iter_xO_value. f_equal. f_equal. lia.
    + rewrite iter_xO_digits. lia.
    + lia.
Qed.

(** Below 2^53 in magnitude, [float64(n)] is [n]. *)
Lemma of_int_exact n : Z.abs n < 2 ^ 53 -> Float64.exact (Float64.of_int n) n.
Proof.
  intros H. unfold Float64.of_int, Float64.prec, Float64.emax.
  destruct n as [|p|p]; unfold binary_normalize.
  - reflexivity.
  - destruct (binary_round_small false p) as (m & e & -> & He & Hm).
    { apply digits2_pos_bound. exact H. }
    simpl. split; assumption.
  - destruct (binary_round_small true p) as (m & e & -> & He & Hm).
    { apply digits2_pos_bound. exact H. }
    cbn [Float64.exact cond_Zopp]. split; [assumption|].
    change (Z.neg p) with (- Z.pos p). rewrite Z.mul_opp_l, <- Hm. reflexivity.
Qed.

Arguments Float64.of_int : simpl never.

(** ** The constructed exporter *)

Lemma MustNewConstMetric_usable d v s :
  usable d -> MustNewConstMetric d GaugeValue v s = Return (gauge d v) s.
Proof.
  intros [He Hl]. unfold MustNewConstMetric, NewConstMetric.
  rewrite He, Hl. reflexivity.
Qed.

Lemma NewOpenVPNExporter_usable path e :
  NewOpenVPNExporter path = (Some e, None) -> Forall usable (descriptors e).
Proof.
  intros H. injection H as <-. repeat constructor.
Qed.

Lemma NewOpenVPNExporter_path path e :
  NewOpenVPNExporter path = (Some e, None) -> xmlrpcPath e = path.
Proof. intros H. injection H as <-. reflexivity. Qed.

Lemma NewOpenVPNExporter_names path e :
  NewOpenVPNExporter path = (Some e, None) ->
  map fqName (descriptors e)
  = [ "openvpnas_up";
      "openvpnas_status_update_time_seconds";
      "openvpnas_subscription_status_update_time_seconds";
      "openvpnas_subscription_current_client_connections";
      "openvpnas_subscription_fallback_client_connections";
      "openvpnas_subscription_maximum_client_connections";
      "openvpnas_server_connected_clients" ].
Proof. intros H. injection H as <-. reflexivity. Qed.

(** ** How the methods run *)

Section Runs.

Variable remote : Remote.
Variable e : OpenVPNExporter.
Hypothesis descs_usable : Forall usable (descriptors e).

Lemma usable_field d : In d (descriptors e) -> usable d.
Proof. intros H. exact (proj1 (Forall_forall _ _) descs_usable d H). Qed.

Lemma Call_answer {T} method (decode : Response -> error + T) s :
  Call remote (client_of remote e) method decode s
  = Return (answer remote e method decode)
      {| self := self s; ch := ch s; descs := descs s;
         calls := calls s ++ [method]; logs := logs s; closed := closed s |}.
Proof.
  unfold Call, answer, client_of. cbn.
  destruct (net_Dial remote "unix" (xmlrpcPath e)); [reflexivity|].
  destruct (serve remote method); reflexivity.
Qed.

Lemma CollectVPNSummary_runs s :
  self s = e ->
  CollectVPNSummary remote (client_of remote e) s
  = match call1 remote e with
    | inl err =>
        Return (Some err)
          {| self := e; ch := ch s; descs := descs s;
             calls := calls s ++ ["GetVPNSummary"];
             logs := logs s ++ ["Failed to call GetVPNSummary: " ++ err];
             closed := closed s |}
    | inr r1 =>
        Return None
          {| self := e; ch := ch s ++ [connected_clients_sample e r1];
             descs := descs s; calls := calls s ++ ["GetVPNSummary"];
             logs := logs s; closed := closed s |}
    end.
Proof.
  intros Hs. unfold CollectVPNSummary, bind, this.
  rewrite Call_answer, Hs. fold (call1 remote e).
  destruct (call1 remote e) as [err|r1]; [reflexivity|].
  rewrite MustNewConstMetric_usable; [reflexivity|].
  apply usable_field. cbn. tauto.
Qed.

Lemma CollectSubscriptionStatistics_runs s :
  self s = e ->
  CollectSubscriptionStatistics remote (client_of remote e) s
  = match call2 remote e with
    | inl err =>
        Return (Some err)
          {| self := e; ch := ch s; descs := descs s;
             calls := calls s ++ ["GetSubscriptionStatus"];
             logs := logs s ++ ["Failed to call GetSubscriptionStatus: " ++ err];
             closed := closed s |}
    | inr r2 =>
        Return None
          {| self := e; ch := ch s ++ subscription_samples e r2;
             descs := descs s; calls := calls s ++ ["GetSubscriptionStatus"];
             logs := logs s; closed := closed s |}
    end.
Proof.
  intros Hs. unfold CollectSubscriptionStatistics, bind, this.
  rewrite Call_answer, Hs. fold (call2 remote e).
  destruct (call2 remote e) as [err|r2]; [reflexivity|].
  repeat (rewrite MustNewConstMetric_usable by (apply usable_field; cbn; tauto);
          cbn [send self ch descs calls logs closed]).
  cbn [ret]. rewrite <- !app_assoc. reflexivity.
Qed.

(** One scrape: what is sent, called and logged depends on the ending alone;
    the connection is closed once on every path. *)
Lemma Collect_runs s :
  self s = e ->
  Collect remote s
  = Return tt {| self := e; ch := ch s ++ sent e (ending remote e);
                 descs := descs s; calls := calls s ++ called (ending remote e);
                 logs := logs s ++ logged (ending remote e);
                 closed := S (closed s) |}.
Proof.
  intros Hs.
  assert (Hup : usable (openvpnUpDesc e)) by (apply usable_field; cbn; tauto).
  unfold Collect, bind at 1, this, defer.
  rewrite Hs. fold (client_of remote e).
  unfold bind at 1. rewrite (CollectVPNSummary_runs _ Hs).
  unfold ending.
  destruct (call1 remote e) as [err1|r1].
  - unfold bind. rewrite MustNewConstMetric_usable by assumption.
    reflexivity.
  - unfold bind at 1.
    rewrite CollectSubscriptionStatistics_runs by reflexivity.
    destruct (call2 remote e) as [err2|r2];
      unfold bind; rewrite MustNewConstMetric_usable by assumption;
      cbn; rewrite <- ?app_assoc, ?app_nil_r; reflexivity.
Qed.

Lemma samples_sent : samples remote e = sent e (ending remote e).
Proof. unfold samples. rewrite Collect_runs; reflexivity. Qed.

Lemma Describe_runs s :
  self s = e ->
  Describe s
  = Return tt {| self := e; ch := ch s; descs := descs s ++ [openvpnUpDesc e];
                 calls := calls s; logs := logs s; closed := closed s |}.
Proof. intros Hs. unfold Describe, bind, this, send_desc. rewrite Hs. reflexivity. Qed.

End Runs.

(** ** No method writes to the exporter *)

Create HintDb keeps.

Lemma keeps_self_ret {A} (a : A) : keeps_self (ret a).
Proof. intros s. reflexivity. Qed.

Lemma keeps_self_panic {A} msg : keeps_self (@panic A msg).
Proof. intros s. reflexivity. Qed.

Lemma keeps_self_this : keeps_self this.
Proof. intros s. reflexivity. Qed.

Lemma keeps_self_send m : keeps_self (send m).
Proof. intros s. reflexivity. Qed.

Lemma keeps_self_send_desc d : keeps_self (send_desc d).
Proof. intros s. reflexivity. Qed.

Lemma keeps_self_log_Printf line : keeps_self (log_Printf line).
Proof. intros s. reflexivity. Qed.

Lemma keeps_self_Close client : keeps_self (Close client).
Proof. intros s. reflexivity. Qed.

Lemma keeps_self_Call {T} remote client method (decode : Response -> error + T) :
  keeps_self (Call remote client method decode).
Proof.
  intros s. unfold Call.
  destruct (Transport_Dial _ _ _); [reflexivity|].
  destruct (serve remote method); reflexivity.
Qed.

Lemma keeps_self_MustNewConstMetric d vt v : keeps_self (MustNewConstMetric d vt v).
Proof.
  intros s. unfold MustNewConstMetric.
  destruct (NewConstMetric d vt v []); reflexivity.
Qed.

Lemma keeps_self_bind {A B} (m : M A) (k : A -> M B) :
  keeps_self m -> (forall a, keeps_self (k a)) -> keeps_self (bind m k).
Proof.
  intros Hm Hk s. unfold bind. specialize (Hm s).
  destruct (m s) as [a s'|msg s']; cbn in *; [|assumption].
  rewrite Hk. assumption.
Qed.

Lemma keeps_self_defer {A} (f : M unit) (body : M A) :
  keeps_self f -> keeps_self body -> keeps_self (defer f body).
Proof.
  intros Hf Hb s. unfold defer. specialize (Hb s).
  destruct (body s) as [a s'|msg s']; cbn in *.
  - specialize (Hf s'). destruct (f s'); cbn in *; congruence.
  - rewrite Hf. assumption.
Qed.

#[local] Hint Resolve keeps_self_ret keeps_self_panic keeps_self_this
  keeps_self_send keeps_self_send_desc keeps_self_log_Printf keeps_self_Close
  keeps_self_Call keeps_self_MustNewConstMetric : keeps.

(** Walks down a method body: binds and defers split, a [match] on a result
    is tried on each branch, the leaves are the primitives above. *)
Ltac keeps :=
  repeat first
    [ apply keeps_self_bind; [|intros ?]
    | apply keeps_self_defer
    | match goal with
      | |- keeps_self (match ?x with _ => _ end) => destruct x
      end
    | solve [auto with keeps] ].

Lemma keeps_self_Describe : keeps_self Describe.
Proof. unfold Describe. keeps. Qed.

Lemma keeps_self_CollectVPNSummary remote client :
  keeps_self (CollectVPNSummary remote client).
Proof. unfold CollectVPNSummary. keeps. Qed.

Lemma keeps_self_CollectSubscriptionStatistics remote client :
  keeps_self (CollectSubscriptionStatistics remote client).
Proof. unfold CollectSubscriptionStatistics. keeps. Qed.

Lemma keeps_self_Collect remote : keeps_self (Collect remote).
Proof.
  pose proof keeps_self_CollectVPNSummary.
  pose proof keeps_self_CollectSubscriptionStatistics.
  unfold Collect. keeps.
Qed.

(** ** The health sample *)

Lemma sent_ends_with_health path e x :
  NewOpenVPNExporter path = (Some e, None) ->
  ends_with_health e (health_value x) (sent e x).
Proof.
  intros H. injection H as <-.
  destruct x as [err|r1 err|r1 r2]; eexists; repeat split; reflexivity.
Qed.

Lemma scrape_returns remote path e :
  NewOpenVPNExporter path = (Some e, None) ->
  returned (Collect remote (fresh e)) = true.
Proof.
  intros H. rewrite (Collect_runs remote e); [reflexivity| |reflexivity].
  exact (NewOpenVPNExporter_usable _ _ H).
Qed.

Lemma scrape_samples remote path e :
  NewOpenVPNExporter path = (Some e, None) ->
  samples remote e = sent e (ending remote e).
Proof. intros H. apply samples_sent. exact (NewOpenVPNExporter_usable _ _ H). Qed.

Lemma scrape_calls remote path e :
  NewOpenVPNExporter path = (Some e, None) ->
  calls (final (Collect remote (fresh e))) = called (ending remote e).
Proof.
  intros H. rewrite (Collect_runs remote e); [reflexivity| |reflexivity].
  exact (NewOpenVPNExporter_usable _ _ H).
Qed.

Lemma ending_call1_failed remote e err :
  call1 remote e = inl err -> ending remote e = Call1Failed err.
Proof. intros H. unfold ending. rewrite H. reflexivity. Qed.

Lemma ending_call2_failed remote e r1 err :
  call1 remote e = inr r1 -> call2 remote e = inl err ->
  ending remote e = Call2Failed r1 err.
Proof. intros H1 H2. unfold ending. rewrite H1, H2. reflexivity. Qed.

Lemma ending_both_succeeded remote e r1 r2 :
  call1 remote e = inr r1 -> call2 remote e = inr r2 ->
  ending remote e = BothSucceeded r1 r2.
Proof. intros H1 H2. unfold ending. rewrite H1, H2. reflexivity. Qed.

(** The fail-fast path: a failed first call ends the scrape at once. *)
Lemma fail_fast remote path e err :
  NewOpenVPNExporter path = (Some e, None) ->
  call1 remote e = inl err ->
  returned (Collect remote (fresh e)) = true
  /\ samples remote e = [gauge (openvpnUpDesc e) Float64.zero]
  /\ non_health_samples e (samples remote e) = []
  /\ health_samples e (samples remote e) = [gauge (openvpnUpDesc e) Float64.zero]
  /\ calls (final (Collect remote (fresh e))) = ["GetVPNSummary"]
  /\ ~ In "GetSubscriptionStatus" (calls (final (Collect remote (fresh e)))).
Proof.
  intros H H1.
  pose proof (sent_ends_with_health path e (Call1Failed err) H) as (pre & Hpre & Hh & Hn).
  split; [exact (scrape_returns remote path e H)|].
  rewrite (scrape_samples remote path e H), (scrape_calls remote path e H).
  rewrite (ending_call1_failed _ _ _ H1).
  cbn [sent health_value called] in *.
  destruct pre as [|m pre]; [|destruct pre; discriminate Hpre].
  repeat split; try assumption.
  cbn. intros [Habs|[]]. discriminate Habs.
Qed.

(** A failed dial is the error of every call on the client. *)
Lemma answer_dial_failure {T} remote path e err method
    (decode : Response -> error + T) :
  NewOpenVPNExporter path = (Some e, None) ->
  net_Dial remote "unix" path = Some err ->
  answer remote e method decode = inl err.
Proof.
  intros H Hd. unfold answer.
  rewrite (NewOpenVPNExporter_path _ _ H), Hd. reflexivity.
Qed.

(** * The collection cycle *)

(** C1. When GetVPNSummary and then GetSubscriptionStatus both succeed, the
    scrape returns normally and sends five non-health samples and then one
    health sample of value 1.0, which is the last sample sent. The first
    sample is the connected-clients gauge, sent by [CollectVPNSummary] with
    the returned count; the next four are the subscription gauges (update
    time, current, maximum, fallback connections), sent by
    [CollectSubscriptionStatistics] with the returned fields. *)
Theorem both_calls_succeed remote path e r1 r2 :
  NewOpenVPNExporter path = (Some e, None) ->
  call1 remote e = inr r1 ->
  call2 remote e = inr r2 ->
  returned (Collect remote (fresh e)) = true
  /\ ends_with_health e Float64.one (samples remote e)
  /\ non_health_samples e (samples remote e)
     = (ch (final (CollectVPNSummary remote (client_of remote e) (fresh e)))
        ++ ch (final (CollectSubscriptionStatistics remote (client_of remote e)
                        (fresh e))))%list
  /\ List.length (ch (final (CollectVPNSummary remote (client_of remote e)
                          (fresh e))))
     = 1%nat
  /\ List.length (ch (final (CollectSubscriptionStatistics remote
                          (client_of remote e) (fresh e))))
     = 4%nat
  /\ List.length (non_health_samples e (samples remote e)) = 5%nat
  /\ List.length (health_samples e (samples remote e)) = 1%nat
  /\ ch (final (CollectVPNSummary remote (client_of remote e) (fresh e)))
     = [ gauge (openvpnConnectedClientsDesc e) (Float64.of_int (NClients r1)) ]
  /\ ch (final (CollectSubscriptionStatistics remote (client_of remote e)
                  (fresh e)))
     = [ gauge (openvpnSubscriptionStatusUpdateTimeDesc e)
           (Float64.of_int (LastSuccessfulUpdate r2));
         gauge (openvpnSubscriptionCurrentClientConnections e)
           (Float64.of_int (CurrentCc r2));
         gauge (openvpnSubscriptionMaximumClientConnections e)
           (Float64.of_int (MaxCc r2));
         gauge (openvpnSubscriptionFallbackClientConnections e)
           (Float64.of_int (FallbackCc r2)) ]
  /\ samples remote e
     = [ gauge (openvpnConnectedClientsDesc e) (Float64.of_int (NClients r1));
         gauge (openvpnSubscriptionStatusUpdateTimeDesc e)
           (Float64.of_int (LastSuccessfulUpdate r2));
         gauge (openvpnSubscriptionCurrentClientConnections e)
           (Float64.of_int (CurrentCc r2));
         gauge (openvpnSubscriptionMaximumClientConnections e)
           (Float64.of_int (MaxCc r2));
         gauge (openvpnSubscriptionFallbackClientConnections e)
           (Float64.of_int (FallbackCc r2));
         gauge (openvpnUpDesc e) Float64.one ]
  /\ health_samples e (samples remote e) = [ gauge (openvpnUpDesc e) Float64.one ]
  /\ map sample_name (samples remote e)
     = [ "openvpnas_server_connected_clients";
         "openvpnas_subscription_status_update_time_seconds";
         "openvpnas_subscription_current_client_connections";
         "openvpnas_subscription_maximum_client_connections";
         "openvpnas_subscription_fallback_client_connections";
         "openvpnas_up" ].
Proof.
  intros H H1 H2.
  pose proof (NewOpenVPNExporter_usable _ _ H) as Hu.
  pose proof (sent_ends_with_health path e (BothSucceeded r1 r2) H) as Hh.
  split; [exact (scrape_returns remote path e H)|].
  rewrite (scrape_samples remote path e H), (ending_both_succeeded _ _ _ _ H1 H2).
  rewrite (CollectVPNSummary_runs remote e Hu) by reflexivity.
  rewrite (CollectSubscriptionStatistics_runs remote e Hu) by reflexivity.
  rewrite H1, H2. cbn [final ch fresh app].
  split; [exact Hh|].
  destruct Hh as (pre & Hpre & Hhealth & Hnon).
  rewrite Hhealth, Hnon.
  cbn [sent health_value] in Hpre.
  change (connected_clients_sample e r1 :: subscription_samples e r2
          ++ [gauge (openvpnUpDesc e) Float64.one])%list
    with ((connected_clients_sample e r1 :: subscription_samples e r2)
          ++ [gauge (openvpnUpDesc e) Float64.one])%list in Hpre.
  apply app_inj_tail in Hpre as [<- _].
  repeat (split; [reflexivity|]).
  injection H as <-. reflexivity.
Qed.

Lemma both_calls_succeed_witness :
  returned (Collect healthy (fresh exporter0)) = true
  /\ ends_with_health exporter0 Float64.one (samples healthy exporter0)
  /\ non_health_samples exporter0 (samples healthy exporter0)
     = (ch (final (CollectVPNSummary healthy (client_of healthy exporter0) (fresh exporter0)))
        ++ ch (final (CollectSubscriptionStatistics healthy (client_of healthy exporter0)
                        (fresh exporter0))))%list
  /\ List.length (ch (final (CollectVPNSummary healthy (client_of healthy exporter0)
                          (fresh exporter0))))
     = 1%nat
  /\ List.length (ch (final (CollectSubscriptionStatistics healthy
                          (client_of healthy exporter0) (fresh exporter0))))
     = 4%nat
  /\ List.length (non_health_samples exporter0 (samples healthy exporter0)) = 5%nat
  /\ List.length (health_samples exporter0 (samples healthy exporter0)) = 1%nat
  /\ ch (final (CollectVPNSummary healthy (client_of healthy exporter0) (fresh exporter0)))
     = [ gauge (openvpnConnectedClientsDesc exporter0) (Float64.of_int (NClients summary7)) ]
  /\ ch (final (CollectSubscriptionStatistics healthy (client_of healthy exporter0)
                  (fresh exporter0)))
     = [ gauge (openvpnSubscriptionStatusUpdateTimeDesc exporter0)
           (Float64.of_int (LastSuccessfulUpdate subscription3));
         gauge (openvpnSubscriptionCurrentClientConnections exporter0)
           (Float64.of_int (CurrentCc subscription3));
         gauge (openvpnSubscriptionMaximumClientConnections exporter0)
           (Float64.of_int (MaxCc subscription3));
         gauge (openvpnSubscriptionFallbackClientConnections exporter0)
           (Float64.of_int (FallbackCc subscription3)) ]
  /\ samples healthy exporter0
     = [ gauge (openvpnConnectedClientsDesc exporter0) (Float64.of_int (NClients summary7));
         gauge (openvpnSubscriptionStatusUpdateTimeDesc exporter0)
           (Float64.of_int (LastSuccessfulUpdate subscription3));
         gauge (openvpnSubscriptionCurrentClientConnections exporter0)
           (Float64.of_int (CurrentCc subscription3));
         gauge (openvpnSubscriptionMaximumClientConnections exporter0)
           (Float64.of_int (MaxCc subscription3));
         gauge (openvpnSubscriptionFallbackClientConnections exporter0)
           (Float64.of_int (FallbackCc subscription3));
         gauge (openvpnUpDesc exporter0) Float64.one ]
  /\ health_samples exporter0 (samples healthy exporter0) = [ gauge (openvpnUpDesc exporter0) Float64.one ]
  /\ map sample_name (samples healthy exporter0)
     = [ "openvpnas_server_connected_clients";
         "openvpnas_subscription_status_update_time_seconds";
         "openvpnas_subscription_current_client_connections";
         "openvpnas_subscription_maximum_client_connections";
         "openvpnas_subscription_fallback_client_connections";
         "openvpnas_up" ].
Proof.
  exact (both_calls_succeed healthy sagent exporter0 summary7 subscription3
           eq_refl eq_refl eq_refl).
Defined.

(** C2. When the first call, GetVPNSummary, fails, the scrape sends no
    non-health sample and exactly one health sample, of value 0.0, and
    GetSubscriptionStatus is never called: the only call made is the failed
    GetVPNSummary. *)
Theorem first_call_fails remote path e err :
  NewOpenVPNExporter path = (Some e, None) ->
  call1 remote e = inl err ->
  returned (Collect remote (fresh e)) = true
  /\ samples remote e = [gauge (openvpnUpDesc e) Float64.zero]
  /\ non_health_samples e (samples remote e) = []
  /\ health_samples e (samples remote e) = [gauge (openvpnUpDesc e) Float64.zero]
  /\ calls (final (Collect remote (fresh e))) = ["GetVPNSummary"]
  /\ ~ In "GetSubscriptionStatus" (calls (final (Collect remote (fresh e)))).
Proof. exact (fail_fast remote path e err). Qed.

Lemma first_call_fails_witness :
  returned (Collect summary_fault (fresh exporter0)) = true
  /\ samples summary_fault exporter0 = [gauge (openvpnUpDesc exporter0) Float64.zero]
  /\ non_health_samples exporter0 (samples summary_fault exporter0) = []
  /\ health_samples exporter0 (samples summary_fault exporter0)
     = [gauge (openvpnUpDesc exporter0) Float64.zero]
  /\ calls (final (Collect summary_fault (fresh exporter0))) = ["GetVPNSummary"]
  /\ ~ In "GetSubscriptionStatus"
         (calls (final (Collect summary_fault (fresh exporter0)))).
Proof.
  exact (first_call_fails summary_fault sagent exporter0 "fault" eq_refl eq_refl).
Defined.

(** C3. When GetVPNSummary succeeds and GetSubscriptionStatus fails, the
    scrape sends exactly one non-health sample, the connected-clients gauge
    holding the returned count, and exactly one health sample, of value 0.0,
    after it. *)
Theorem second_call_fails remote path e r1 err :
  NewOpenVPNExporter path = (Some e, None) ->
  call1 remote e = inr r1 ->
  call2 remote e = inl err ->
  returned (Collect remote (fresh e)) = true
  /\ ends_with_health e Float64.zero (samples remote e)
  /\ non_health_samples e (samples remote e)
     = [gauge (openvpnConnectedClientsDesc e) (Float64.of_int (NClients r1))]
  /\ fqName (openvpnConnectedClientsDesc e) = "openvpnas_server_connected_clients"
  /\ health_samples e (samples remote e) = [gauge (openvpnUpDesc e) Float64.zero].
Proof.
  intros H H1 H2.
  pose proof (sent_ends_with_health path e (Call2Failed r1 err) H) as Hh.
  split; [exact (scrape_returns remote path e H)|].
  rewrite (scrape_samples remote path e H), (ending_call2_failed _ _ _ _ H1 H2).
  split; [exact Hh|].
  destruct Hh as (pre & Hpre & Hhealth & Hnon).
  rewrite Hhealth, Hnon. cbn [sent health_value] in Hpre.
  change [connected_clients_sample e r1; gauge (openvpnUpDesc e) Float64.zero]
    with ([connected_clients_sample e r1] ++ [gauge (openvpnUpDesc e) Float64.zero])%list
    in Hpre.
  apply app_inj_tail in Hpre as [<- _].
  repeat split. injection H as <-. reflexivity.
Qed.

Lemma second_call_fails_witness :
  returned (Collect subscription_fault (fresh exporter0)) = true
  /\ ends_with_health exporter0 Float64.zero (samples subscription_fault exporter0)
  /\ non_health_samples exporter0 (samples subscription_fault exporter0)
     = [gauge (openvpnConnectedClientsDesc exporter0)
          (Float64.of_int (NClients summary7))]
  /\ fqName (openvpnConnectedClientsDesc exporter0)
     = "openvpnas_server_connected_clients"
  /\ health_samples exporter0 (samples subscription_fault exporter0)
     = [gauge (openvpnUpDesc exporter0) Float64.zero].
Proof.
  exact (second_call_fails subscription_fault sagent exporter0 summary7 "fault"
           eq_refl eq_refl eq_refl).
Defined.

(** C4. Whatever the endpoint does, a scrape returns normally having sent
    exactly one health sample, of value 0.0 or 1.0, and that sample is the
    last one sent: every sample before it is a non-health sample. *)
Theorem one_health_sample_last remote path e :
  NewOpenVPNExporter path = (Some e, None) ->
  returned (Collect remote (fresh e)) = true
  /\ List.length (health_samples e (samples remote e)) = 1%nat
  /\ exists v pre,
       (v = Float64.zero \/ v = Float64.one)
       /\ samples remote e = (pre ++ [gauge (openvpnUpDesc e) v])%list
       /\ health_samples e (samples remote e) = [gauge (openvpnUpDesc e) v]
       /\ Forall (fun m => is_health e m = false) pre.
Proof.
  intros H.
  pose proof (sent_ends_with_health path e (ending remote e) H)
    as (pre & Hpre & Hhealth & Hnon).
  split; [exact (scrape_returns remote path e H)|].
  rewrite (scrape_samples remote path e H), Hhealth.
  split; [reflexivity|].
  exists (health_value (ending remote e)), pre.
  split; [destruct (ending remote e); cbn; tauto|].
  repeat split; try assumption.
  rewrite <- Hnon. apply Forall_forall. intros m Hm.
  apply filter_In in Hm as [_ Hm]. now apply negb_true_iff in Hm.
Qed.

Lemma one_health_sample_last_witness :
  returned (Collect unreachable (fresh exporter0)) = true
  /\ List.length (health_samples exporter0 (samples unreachable exporter0)) = 1%nat
  /\ exists v pre,
       (v = Float64.zero \/ v = Float64.one)
       /\ samples unreachable exporter0
          = (pre ++ [gauge (openvpnUpDesc exporter0) v])%list
       /\ health_samples exporter0 (samples unreachable exporter0)
          = [gauge (openvpnUpDesc exporter0) v]
       /\ Forall (fun m => is_health exporter0 m = false) pre.
Proof.
  exact (one_health_sample_last unreachable sagent exporter0 eq_refl).
Defined.

(** C5, as the code has it. [Collect] has no step that opens the connection
    and can fail: [NewClient] dials nothing and its error is dropped. When
    the dial of the socket fails, the failure is the error of the first
    call: GetVPNSummary is called once and fails, the scrape sends health
    0.0 and no other sample, GetSubscriptionStatus is never called, and the
    client is closed. *)
Theorem dial_failure remote path e err :
  NewOpenVPNExporter path = (Some e, None) ->
  net_Dial remote "unix" path = Some err ->
  returned (Collect remote (fresh e)) = true
  /\ call1 remote e = inl err
  /\ samples remote e = [gauge (openvpnUpDesc e) Float64.zero]
  /\ non_health_samples e (samples remote e) = []
  /\ calls (final (Collect remote (fresh e))) = ["GetVPNSummary"]
  /\ ~ In "GetSubscriptionStatus" (calls (final (Collect remote (fresh e))))
  /\ closed (final (Collect remote (fresh e))) = 1%nat.
Proof.
  intros H Hd.
  pose proof (answer_dial_failure remote path e err "GetVPNSummary"
                decode_VPNSummary H Hd) as H1.
  fold (call1 remote e) in H1.
  destruct (fail_fast remote path e err H H1) as (Hr & Hs & Hn & _ & Hc & Hc2).
  repeat split; try assumption.
  rewrite (Collect_runs remote e (NewOpenVPNExporter_usable _ _ H)); reflexivity.
Qed.

Lemma dial_failure_witness :
  returned (Collect unreachable (fresh exporter0)) = true
  /\ call1 unreachable exporter0 = inl "connect: no such file or directory"
  /\ samples unreachable exporter0 = [gauge (openvpnUpDesc exporter0) Float64.zero]
  /\ non_health_samples exporter0 (samples unreachable exporter0) = []
  /\ calls (final (Collect unreachable (fresh exporter0))) = ["GetVPNSummary"]
  /\ ~ In "GetSubscriptionStatus"
         (calls (final (Collect unreachable (fresh exporter0))))
  /\ closed (final (Collect unreachable (fresh exporter0))) = 1%nat.
Proof.
  exact (dial_failure unreachable sagent exporter0
           "connect: no such file or directory" eq_refl eq_refl).
Defined.

(** C5, as stated, fails: with nothing listening on the socket the scrape
    still calls GetVPNSummary, so it does not end without attempting either
    call. *)
Lemma dial_failure_attempts_first_call :
  NewOpenVPNExporter sagent = (Some exporter0, None)
  /\ net_Dial unreachable "unix" sagent <> None
  /\ ~ (calls (final (Collect unreachable (fresh exporter0))) = []).
Proof.
  split; [reflexivity|]. split; discriminate.
Qed.

(** ** Which metrics a scrape sends *)

(** The names a scrape can send, whatever its ending. *)
Lemma sent_names path e x :
  NewOpenVPNExporter path = (Some e, None) ->
  incl (map sample_name (sent e x))
    [ "openvpnas_up";
      "openvpnas_server_connected_clients";
      "openvpnas_subscription_status_update_time_seconds";
      "openvpnas_subscription_current_client_connections";
      "openvpnas_subscription_maximum_client_connections";
      "openvpnas_subscription_fallback_client_connections" ].
Proof.
  intros H. injection H as <-.
  destruct x as [err|r1 err|r1 r2]; intros n Hn; cbn in Hn |- *;
    repeat (destruct Hn as [<-|Hn]; [tauto|]); contradiction.
Qed.

Lemma sent_no_status_update_time path e x :
  NewOpenVPNExporter path = (Some e, None) ->
  Forall (fun m => bears (openvpnStatusUpdateTimeDesc e) m = false) (sent e x).
Proof.
  intros H. injection H as <-.
  destruct x as [err|r1 err|r1 r2]; repeat constructor.
Qed.

(** C6, as the code has it. The constructor builds the descriptor
    status_update_time_seconds and the exporter holds it, but no scrape
    sends a sample that bears it: the samples of a scrape are named after
    the health gauge, the connected-clients gauge and the four subscription
    gauges only, and a successful scrape sends one sample of each of those
    six. *)
Theorem status_update_time_held_not_sent remote path e :
  NewOpenVPNExporter path = (Some e, None) ->
  fqName (openvpnStatusUpdateTimeDesc e) = "openvpnas_status_update_time_seconds"
  /\ In (openvpnStatusUpdateTimeDesc e) (descriptors e)
  /\ Forall (fun m => bears (openvpnStatusUpdateTimeDesc e) m = false)
       (samples remote e)
  /\ incl (map sample_name (samples remote e))
       [ "openvpnas_up";
         "openvpnas_server_connected_clients";
         "openvpnas_subscription_status_update_time_seconds";
         "openvpnas_subscription_current_client_connections";
         "openvpnas_subscription_maximum_client_connections";
         "openvpnas_subscription_fallback_client_connections" ]
  /\ (forall r1 r2,
        call1 remote e = inr r1 -> call2 remote e = inr r2 ->
        map sample_name (samples remote e)
        = [ "openvpnas_server_connected_clients";
            "openvpnas_subscription_status_update_time_seconds";
            "openvpnas_subscription_current_client_connections";
            "openvpnas_subscription_maximum_client_connections";
            "openvpnas_subscription_fallback_client_connections";
            "openvpnas_up" ]).
Proof.
  intros H.
  rewrite (scrape_samples remote path e H).
  split; [injection H as <-; reflexivity|].
  split; [cbn; tauto|].
  split; [exact (sent_no_status_update_time path e _ H)|].
  split; [exact (sent_names path e _ H)|].
  intros r1 r2 H1 H2. rewrite (ending_both_succeeded _ _ _ _ H1 H2).
  injection H as <-. reflexivity.
Qed.

Lemma status_update_time_held_not_sent_witness :
  fqName (openvpnStatusUpdateTimeDesc exporter0)
  = "openvpnas_status_update_time_seconds"
  /\ In (openvpnStatusUpdateTimeDesc exporter0) (descriptors exporter0)
  /\ Forall (fun m => bears (openvpnStatusUpdateTimeDesc exporter0) m = false)
       (samples healthy exporter0)
  /\ incl (map sample_name (samples healthy exporter0))
       [ "openvpnas_up";
         "openvpnas_server_connected_clients";
         "openvpnas_subscription_status_update_time_seconds";
         "openvpnas_subscription_current_client_connections";
         "openvpnas_subscription_maximum_client_connections";
         "openvpnas_subscription_fallback_client_connections" ]
  /\ (forall r1 r2,
        call1 healthy exporter0 = inr r1 -> call2 healthy exporter0 = inr r2 ->
        map sample_name (samples healthy exporter0)
        = [ "openvpnas_server_connected_clients";
            "openvpnas_subscription_status_update_time_seconds";
            "openvpnas_subscription_current_client_connections";
            "openvpnas_subscription_maximum_client_connections";
            "openvpnas_subscription_fallback_client_connections";
            "openvpnas_up" ]).
Proof.
  exact (status_update_time_held_not_sent healthy sagent exporter0 eq_refl).
Defined.

(** C6, as stated, fails: on no scrape of a constructed exporter, successful
    or not, does a sample bearing the status_update_time_seconds descriptor
    appear. *)
Lemma status_update_time_never_sent :
  ~ exists remote path e m,
      NewOpenVPNExporter path = (Some e, None)
      /\ In m (samples remote e)
      /\ bears (openvpnStatusUpdateTimeDesc e) m = true.
Proof.
  intros (remote & path & e & m & H & Hin & Hb).
  rewrite (scrape_samples remote path e H) in Hin.
  pose proof (sent_no_status_update_time path e (ending remote e) H) as Hall.
  rewrite Forall_forall in Hall. rewrite (Hall m Hin) in Hb. discriminate.
Qed.

(** ** The subscription gauges *)

(** C7. When GetSubscriptionStatus succeeds, [CollectSubscriptionStatistics]
    sends exactly four gauge samples in the order update time, current
    connections, maximum connections, fallback connections; each value is
    the [float64] conversion of the decoded field, which below 2^53 in
    magnitude is the field's integer itself; and the scrape consists of the
    connected-clients sample, these four, and the health sample 1.0. *)
Theorem subscription_gauges remote path e r1 r2 :
  NewOpenVPNExporter path = (Some e, None) ->
  call1 remote e = inr r1 ->
  call2 remote e = inr r2 ->
  map (fun m => (sample_name m, valType m, val m))
    (ch (final (CollectSubscriptionStatistics remote (client_of remote e) (fresh e))))
  = [ ("openvpnas_subscription_status_update_time_seconds", GaugeValue,
       Float64.of_int (LastSuccessfulUpdate r2));
      ("openvpnas_subscription_current_client_connections", GaugeValue,
       Float64.of_int (CurrentCc r2));
      ("openvpnas_subscription_maximum_client_connections", GaugeValue,
       Float64.of_int (MaxCc r2));
      ("openvpnas_subscription_fallback_client_connections", GaugeValue,
       Float64.of_int (FallbackCc r2)) ]
  /\ samples remote e
     = (connected_clients_sample e r1
        :: ch (final (CollectSubscriptionStatistics remote (client_of remote e)
                        (fresh e)))
        ++ [gauge (openvpnUpDesc e) Float64.one])%list
  /\ (forall n,
        In n [LastSuccessfulUpdate r2; CurrentCc r2; MaxCc r2; FallbackCc r2] ->
        Z.abs n < 2 ^ 53 ->
        Float64.exact (Float64.of_int n) n).
Proof.
  intros H H1 H2.
  pose proof (NewOpenVPNExporter_usable _ _ H) as Hu.
  rewrite (scrape_samples remote path e H), (ending_both_succeeded _ _ _ _ H1 H2).
  rewrite (CollectSubscriptionStatistics_runs remote e Hu) by reflexivity.
  rewrite H2. cbn [final ch fresh app sent].
  split; [injection H as <-; reflexivity|].
  split; [reflexivity|].
  intros n _. apply of_int_exact.
Qed.

Lemma subscription_gauges_witness :
  map (fun m => (sample_name m, valType m, val m))
    (ch (final (CollectSubscriptionStatistics healthy (client_of healthy exporter0)
                  (fresh exporter0))))
  = [ ("openvpnas_subscription_status_update_time_seconds", GaugeValue,
       Float64.of_int (LastSuccessfulUpdate subscription3));
      ("openvpnas_subscription_current_client_connections", GaugeValue,
       Float64.of_int (CurrentCc subscription3));
      ("openvpnas_subscription_maximum_client_connections", GaugeValue,
       Float64.of_int (MaxCc subscription3));
      ("openvpnas_subscription_fallback_client_connections", GaugeValue,
       Float64.of_int (FallbackCc subscription3)) ]
  /\ samples healthy exporter0
     = (connected_clients_sample exporter0 summary7
        :: ch (final (CollectSubscriptionStatistics healthy
                        (client_of healthy exporter0) (fresh exporter0)))
        ++ [gauge (openvpnUpDesc exporter0) Float64.one])%list
  /\ (forall n,
        In n [LastSuccessfulUpdate subscription3; CurrentCc subscription3;
              MaxCc subscription3; FallbackCc subscription3] ->
        Z.abs n < 2 ^ 53 ->
        Float64.exact (Float64.of_int n) n).
Proof.
  exact (subscription_gauges healthy sagent exporter0 summary7 subscription3
           eq_refl eq_refl eq_refl).
Defined.

(** The scenario current_cc=3, max_cc=10, fallback_cc=0,
    last_successful_update=1700000000, with n_clients=7: the six samples and
    their binary64 values, each the integer written as mantissa times a
    power of two. *)
Example healthy_scrape :
  map (fun m => (sample_name m, val m)) (samples healthy exporter0)
  = [ ("openvpnas_server_connected_clients",
       S754_finite false (7 * 2 ^ 50) (-50));
      ("openvpnas_subscription_status_update_time_seconds",
       S754_finite false (1700000000 * 2 ^ 22) (-22));
      ("openvpnas_subscription_current_client_connections",
       S754_finite false (3 * 2 ^ 51) (-51));
      ("openvpnas_subscription_maximum_client_connections",
       S754_finite false (10 * 2 ^ 49) (-49));
      ("openvpnas_subscription_fallback_client_connections",
       S754_zero false);
      ("openvpnas_up", S754_finite false (1 * 2 ^ 52) (-52)) ].
Proof. vm_compute. reflexivity. Qed.

(** * The exporter and its descriptors *)

(** C8, as the code has it. The constructor cannot fail: for every path it
    returns an exporter and a nil error. The exporter keeps the path and
    holds seven descriptors, the same for every path: health,
    status-update-time, subscription-update-time, subscription current,
    fallback and maximum connections, connected-clients; their names are
    pairwise distinct, none carries an error or a label. Neither [Describe]
    nor [Collect] changes the exporter, from any store and against any
    endpoint. *)
Theorem constructor_total_seven_descriptors path :
  exists e,
    NewOpenVPNExporter path = (Some e, None)
    /\ xmlrpcPath e = path
    /\ List.length (descriptors e) = 7%nat
    /\ descriptors e = descriptors exporter0
    /\ map fqName (descriptors e)
       = [ "openvpnas_up";
           "openvpnas_status_update_time_seconds";
           "openvpnas_subscription_status_update_time_seconds";
           "openvpnas_subscription_current_client_connections";
           "openvpnas_subscription_fallback_client_connections";
           "openvpnas_subscription_maximum_client_connections";
           "openvpnas_server_connected_clients" ]
    /\ NoDup (map fqName (descriptors e))
    /\ Forall usable (descriptors e)
    /\ keeps_self Describe
    /\ (forall remote, keeps_self (Collect remote)).
Proof.
  eexists. split; [reflexivity|].
  split; [reflexivity|]. split; [reflexivity|]. split; [reflexivity|].
  split; [reflexivity|].
  split.
  { cbn. repeat constructor; cbn; intuition discriminate. }
  split; [repeat constructor|].
  split; [exact keeps_self_Describe | exact keeps_self_Collect].
Qed.

(** C8, as stated, fails: the exporter built for a path holds seven
    descriptors, not eight. *)
Lemma not_eight_descriptors :
  ~ exists e,
      NewOpenVPNExporter sagent = (Some e, None)
      /\ List.length (descriptors e) = 8%nat.
Proof.
  intros (e & H & Hlen). injection H as <-. discriminate Hlen.
Qed.

(** * Repeating a scrape *)

(** C9. The samples of a scrape are a function of what the two calls
    return: endpoints that answer both calls alike yield the same samples.
    Nothing is carried from one scrape to the next: a second scrape, run on
    the exporter as the first one left it, sends the same samples as the
    first; and from any store holding the exporter, a scrape appends exactly
    those samples to the channel. *)
Theorem scrape_deterministic remote remote' path e :
  NewOpenVPNExporter path = (Some e, None) ->
  call1 remote e = call1 remote' e ->
  call2 remote e = call2 remote' e ->
  samples remote e = samples remote' e
  /\ samples remote (self (final (Collect remote (fresh e)))) = samples remote e
  /\ (forall s, self s = e ->
        ch (final (Collect remote s)) = (ch s ++ samples remote e)%list).
Proof.
  intros H H1 H2.
  pose proof (NewOpenVPNExporter_usable _ _ H) as Hu.
  split.
  { rewrite (scrape_samples remote path e H), (scrape_samples remote' path e H).
    unfold ending. rewrite H1, H2. reflexivity. }
  split.
  { rewrite keeps_self_Collect. reflexivity. }
  intros s Hs. rewrite (Collect_runs remote e Hu s Hs).
  rewrite (scrape_samples remote path e H). reflexivity.
Qed.

Lemma scrape_deterministic_witness :
  samples healthy exporter0 = samples sagent_only exporter0
  /\ samples healthy (self (final (Collect healthy (fresh exporter0))))
     = samples healthy exporter0
  /\ (forall s, self s = exporter0 ->
        ch (final (Collect healthy s)) = (ch s ++ samples healthy exporter0)%list).
Proof.
  exact (scrape_deterministic healthy sagent_only sagent exporter0
           eq_refl eq_refl eq_refl).
Defined.

(** * Describe *)

(** C10. [Describe] sends exactly one descriptor, the health descriptor
    [openvpnas_up], and returns; each of the six other descriptors the
    exporter holds differs from it and is not sent. *)
Theorem Describe_sends_up_only path e :
  NewOpenVPNExporter path = (Some e, None) ->
  returned (Describe (fresh e)) = true
  /\ descs (final (Describe (fresh e))) = [openvpnUpDesc e]
  /\ fqName (openvpnUpDesc e) = "openvpnas_up"
  /\ descriptors e = openvpnUpDesc e :: tl (descriptors e)
  /\ List.length (tl (descriptors e)) = 6%nat
  /\ Forall (fun d => ~ In d (descs (final (Describe (fresh e)))))
       (tl (descriptors e)).
Proof.
  intros H.
  rewrite (Describe_runs e (fresh e)) by reflexivity.
  injection H as <-. cbn.
  repeat split; try reflexivity.
  repeat constructor; intros [Habs|[]]; discriminate Habs.
Qed.

Lemma Describe_sends_up_only_witness :
  returned (Describe (fresh exporter0)) = true
  /\ descs (final (Describe (fresh exporter0))) = [openvpnUpDesc exporter0]
  /\ fqName (openvpnUpDesc exporter0) = "openvpnas_up"
  /\ descriptors exporter0 = openvpnUpDesc exporter0 :: tl (descriptors exporter0)
  /\ List.length (tl (descriptors exporter0)) = 6%nat
  /\ Forall (fun d => ~ In d (descs (final (Describe (fresh exporter0)))))
       (tl (descriptors exporter0)).
Proof.
  exact (Describe_sends_up_only sagent exporter0 eq_refl).
Defined.

(** * Beyond the constructed exporter *)

(** ** Running a scrape case by case *)

Lemma usableb_usable d : usableb d = true <-> usable d.
Proof.
  unfold usableb, usable.
  destruct (err d); [split; [discriminate|intros [? _]; discriminate]|].
  destruct (variableLabels d); cbn; split; try tauto; try discriminate.
  intros [_ ?]; discriminate.
Qed.

Lemma MustNewConstMetric_cases d v s :
  MustNewConstMetric d GaugeValue v s
  = if usableb d then Return (gauge d v) s else Panic (refusal d) s.
Proof.
  unfold MustNewConstMetric, NewConstMetric, usableb, refusal.
  destruct (err d); [reflexivity|].
  destruct (variableLabels d); reflexivity.
Qed.

(** One step of a run: a call is replaced by its answer, a
    [MustNewConstMetric] by its test, and either is split. *)
Ltac step :=
  match goal with
  | |- context [Call ?r (client_of ?r ?e) ?m ?d ?st] =>
      rewrite (Call_answer r e m d st)
  | |- context [MustNewConstMetric ?d GaugeValue ?v ?st] =>
      rewrite (MustNewConstMetric_cases d v st)
  | |- context [match answer ?r ?e ?m ?d with _ => _ end] =>
      let H := fresh "Hcall" in destruct (answer r e m d) eqn:H
  | |- context [if usableb ?d then _ else _] =>
      let H := fresh "Huse" in destruct (usableb d) eqn:H
  | _ => progress cbn [send send_desc log_Printf ret Close final self ch descs
                       calls logs closed]
  end.

(** Opens [Collect] on the store [s] and follows it to each of its exits. *)
Ltac scrape remote s :=
  unfold Collect, defer, CollectVPNSummary, CollectSubscriptionStatistics,
    bind, this;
  fold (client_of remote (self s));
  repeat step.

(** X1. The client is closed exactly once in every scrape, whatever the
    exporter, the store and the endpoint, also when the scrape panics. *)
Theorem Collect_closes_once remote s :
  closed (final (Collect remote s)) = S (closed s).
Proof. scrape remote s; reflexivity. Qed.

(** Turns the tests met on the way into facts about the descriptors. *)
Ltac usability :=
  repeat match goal with
         | H : usableb _ = true |- _ => apply usableb_usable in H
         end.

(** X2. A scrape only appends to the metrics channel and leaves the
    descriptor channel alone. Whatever the exporter, what it appends is at
    most six samples, each an unlabelled gauge built from a usable
    descriptor held in one of the six collected fields. *)
Theorem Collect_appends_gauges remote s :
  descs (final (Collect remote s)) = descs s
  /\ exists l,
       ch (final (Collect remote s)) = (ch s ++ l)%list
       /\ (List.length l <= 6)%nat
       /\ Forall (fun m => valType m = GaugeValue
                           /\ labelValues m = []
                           /\ usable (desc m)
                           /\ In (desc m) (collected (self s))) l.
Proof.
  scrape remote s; usability; (split; [reflexivity|]);
    rewrite <- ?app_assoc; cbn [app];
    (eexists; split; [first [reflexivity | symmetry; apply app_nil_r]|]);
    (split; [cbn [List.length]; lia|]);
    repeat (apply Forall_cons;
            [split; [reflexivity|split; [reflexivity|split;
               [assumption|cbn [In collected desc gauge]; tauto]]]|]);
    apply Forall_nil.
Qed.

(** X3. GetVPNSummary is called exactly once in every scrape, and first.
    GetSubscriptionStatus is called at most once, and only when
    GetVPNSummary succeeded and its sample could be built. Nothing is
    retried and nothing else is called. *)
Theorem Collect_call_order remote s :
  calls (final (Collect remote s))
  = (calls s ++
     match call1 remote (self s) with
     | inl _ => ["GetVPNSummary"]
     | inr _ =>
         if usableb (openvpnConnectedClientsDesc (self s))
         then ["GetVPNSummary"; "GetSubscriptionStatus"]
         else ["GetVPNSummary"]
     end)%list.
Proof.
  unfold call1. scrape remote s; rewrite <- ?app_assoc; reflexivity.
Qed.

(** X4. For an exporter whose descriptors are all usable, a scrape logs at
    most one line: the failure of GetVPNSummary with its error, else the
    failure of GetSubscriptionStatus with its error, else nothing. The log
    is left as it was exactly when both calls succeeded. *)
Theorem Collect_logs_the_failure remote s :
  Forall usable (descriptors (self s)) ->
  logs (final (Collect remote s))
  = (logs s ++
     match call1 remote (self s) with
     | inl err => [("Failed to call GetVPNSummary: " ++ err)%string]
     | inr _ =>
         match call2 remote (self s) with
         | inl err => [("Failed to call GetSubscriptionStatus: " ++ err)%string]
         | inr _ => []
         end
     end)%list
  /\ (logs (final (Collect remote s)) = logs s
      <-> exists r1 r2,
            call1 remote (self s) = inr r1 /\ call2 remote (self s) = inr r2).
Proof.
  intros Hu. rewrite (Collect_runs remote (self s) Hu s eq_refl).
  cbn [final logs]. unfold ending.
  destruct (call1 remote (self s)) as [err1|r1];
    [|destruct (call2 remote (self s)) as [err2|r2]]; cbn [logged];
    (split; [reflexivity|]); split.
  - intros H. rewrite <- (app_nil_r (logs s)) in H at 2.
    apply app_inv_head in H. discriminate H.
  - intros (r1 & r2 & H1 & _). discriminate H1.
  - intros H. rewrite <- (app_nil_r (logs s)) in H at 2.
    apply app_inv_head in H. discriminate H.
  - intros (r1' & r2 & _ & H2). discriminate H2.
  - intros _. exists r1, r2. split; reflexivity.
  - intros _. apply app_nil_r.
Qed.

Lemma Collect_logs_the_failure_witness :
  logs (final (Collect subscription_fault (used exporter0)))
  = (logs (used exporter0) ++
     match call1 subscription_fault (self (used exporter0)) with
     | inl err => [("Failed to call GetVPNSummary: " ++ err)%string]
     | inr _ =>
         match call2 subscription_fault (self (used exporter0)) with
         | inl err => [("Failed to call GetSubscriptionStatus: " ++ err)%string]
         | inr _ => []
         end
     end)%list
  /\ (logs (final (Collect subscription_fault (used exporter0)))
      = logs (used exporter0)
      <-> exists r1 r2,
            call1 subscription_fault (self (used exporter0)) = inr r1
            /\ call2 subscription_fault (self (used exporter0)) = inr r2).
Proof.
  apply (Collect_logs_the_failure subscription_fault (used exporter0)).
  repeat constructor.
Defined.

(** X5. [CollectVPNSummary] either returns the error of the call, having
    sent nothing, or returns nil, having sent exactly the connected-clients
    sample; it panics, having sent nothing, exactly when the call succeeded
    and the descriptor is unusable. *)
Theorem CollectVPNSummary_error_or_sample remote s :
  match CollectVPNSummary remote (client_of remote (self s)) s with
  | Return (Some err) s' =>
      call1 remote (self s) = inl err /\ ch s' = ch s
  | Return None s' =>
      exists r1,
        call1 remote (self s) = inr r1
        /\ ch s' = (ch s ++ [connected_clients_sample (self s) r1])%list
        /\ logs s' = logs s
  | Panic _ s' =>
      (exists r1, call1 remote (self s) = inr r1)
      /\ ~ usable (openvpnConnectedClientsDesc (self s))
      /\ ch s' = ch s
  end.
Proof.
  unfold call1, CollectVPNSummary, bind, this. repeat step.
  - split; reflexivity.
  - eexists. repeat split.
  - split; [eexists; reflexivity|]. split; [|reflexivity].
    rewrite <- usableb_usable, Huse. discriminate.
Qed.

(** Closes a goal that denies the usability of descriptors of which one
    has failed its test. *)
Ltac refuted :=
  let H := fresh in
  intros H; cbn [map subscription_samples needed collected desc gauge] in H;
  repeat (apply Forall_cons_iff in H as [? H]);
  rewrite <- usableb_usable in *; congruence.

(** X6. [CollectSubscriptionStatistics] either returns the error of the
    call, having sent nothing, or returns nil, having sent all four
    subscription samples in order. Only a panic leaves a part of the group
    on the channel: the samples before the first unusable descriptor. *)
Theorem CollectSubscriptionStatistics_all_or_error remote s :
  match CollectSubscriptionStatistics remote (client_of remote (self s)) s with
  | Return (Some err) s' =>
      call2 remote (self s) = inl err /\ ch s' = ch s
  | Return None s' =>
      exists r2,
        call2 remote (self s) = inr r2
        /\ ch s' = (ch s ++ subscription_samples (self s) r2)%list
        /\ logs s' = logs s
  | Panic _ s' =>
      exists r2 n,
        call2 remote (self s) = inr r2
        /\ (n < 4)%nat
        /\ ch s' = (ch s ++ firstn n (subscription_samples (self s) r2))%list
        /\ ~ Forall usable (map desc (subscription_samples (self s) r2))
  end.
Proof.
  unfold call2, CollectSubscriptionStatistics, bind, this. repeat step.
  - split; reflexivity.
  - eexists. rewrite <- !app_assoc. repeat split.
  - exists s0, 3%nat. rewrite <- !app_assoc.
    repeat split; [lia|]. refuted.
  - exists s0, 2%nat. rewrite <- !app_assoc.
    repeat split; [lia|]. refuted.
  - exists s0, 1%nat.
    repeat split; [lia|]. refuted.
  - exists s0, 0%nat. rewrite app_nil_r.
    repeat split; [lia|]. refuted.
Qed.

Lemma answer_agrees {T} remote remote' e method (decode : Response -> error + T) :
  net_Dial remote "unix" (xmlrpcPath e) = net_Dial remote' "unix" (xmlrpcPath e) ->
  serve remote method = serve remote' method ->
  answer remote e method decode = answer remote' e method decode.
Proof. intros Hd Hs. unfold answer. rewrite Hd, Hs. reflexivity. Qed.

(** X7. Of the endpoint, a scrape reads only the dial of the unix socket at
    the exporter's path and the answers to GetVPNSummary and
    GetSubscriptionStatus: endpoints that agree on these three give the
    same outcome and the same final store, whatever they do on other
    networks, addresses and methods. *)
Theorem Collect_reads_socket_and_two_methods remote remote' s :
  net_Dial remote "unix" (xmlrpcPath (self s))
  = net_Dial remote' "unix" (xmlrpcPath (self s)) ->
  serve remote "GetVPNSummary" = serve remote' "GetVPNSummary" ->
  serve remote "GetSubscriptionStatus" = serve remote' "GetSubscriptionStatus" ->
  Collect remote s = Collect remote' s.
Proof.
  intros Hd H1 H2.
  pose proof (answer_agrees remote remote' (self s) _ decode_VPNSummary Hd H1) as Ha1.
  pose proof (answer_agrees remote remote' (self s) _ decode_SubscriptionStatus Hd H2)
    as Ha2.
  unfold Collect, defer, CollectVPNSummary, CollectSubscriptionStatistics,
    bind, this.
  fold (client_of remote (self s)). fold (client_of remote' (self s)).
  repeat first [rewrite Ha1 | rewrite Ha2 | step]; reflexivity.
Qed.

Lemma Collect_reads_socket_and_two_methods_witness :
  Collect healthy (used exporter0) = Collect sagent_only (used exporter0).
Proof.
  exact (Collect_reads_socket_and_two_methods healthy sagent_only (used exporter0)
           eq_refl eq_refl eq_refl).
Defined.

(** X8. A scrape returns normally exactly when every descriptor it builds a
    sample from on its way is usable: the health descriptor on every way,
    the connected-clients descriptor once GetVPNSummary succeeded, the four
    subscription descriptors once both calls succeeded. Otherwise it
    panics. *)
Theorem Collect_returns_iff_usable remote s :
  returned (Collect remote s) = true
  <-> Forall usable (needed (self s) (ending remote (self s))).
Proof.
  unfold ending, call1, call2. scrape remote s;
    repeat match goal with
           | |- context [match answer ?r ?e ?m ?d with _ => _ end] =>
               destruct (answer r e m d)
           end;
    cbn [returned needed collected];
    (split; [try discriminate; intros _; usability;
             repeat (apply Forall_cons; [assumption|]); apply Forall_nil
            |try (intros _; reflexivity); intros H; exfalso; revert H; refuted]).
Qed.

(** X9. [Describe] and a scrape that returns do not interfere: in either
    order they leave the same store. *)
Theorem Describe_Collect_commute remote s :
  returned (Collect remote s) = true ->
  (Describe ;; Collect remote) s = (Collect remote ;; Describe) s.
Proof.
  unfold Describe, Collect, defer, CollectVPNSummary,
    CollectSubscriptionStatistics, bind, this.
  cbn [send_desc self]. fold (client_of remote (self s)).
  repeat step; intros H; try discriminate H; reflexivity.
Qed.

Lemma Describe_Collect_commute_witness :
  (Describe ;; Collect healthy) (used exporter0)
  = (Collect healthy ;; Describe) (used exporter0).
Proof.
  exact (Describe_Collect_commute healthy (used exporter0) eq_refl).
Defined.

(** X10. When GetVPNSummary succeeds but the connected-clients descriptor
    is unusable, the scrape panics before anything is sent: the channel
    receives no sample, not even the health sample, GetSubscriptionStatus is
    not called, and the client is still closed. *)
Theorem Collect_panics_before_health remote s r1 :
  call1 remote (self s) = inr r1 ->
  ~ usable (openvpnConnectedClientsDesc (self s)) ->
  returned (Collect remote s) = false
  /\ ch (final (Collect remote s)) = ch s
  /\ calls (final (Collect remote s)) = (calls s ++ ["GetVPNSummary"])%list
  /\ closed (final (Collect remote s)) = S (closed s).
Proof.
  unfold call1. intros H1 Hn. rewrite <- usableb_usable in Hn.
  apply not_true_is_false in Hn.
  unfold Collect, defer, CollectVPNSummary, bind, this.
  fold (client_of remote (self s)).
  rewrite (Call_answer remote (self s)), H1, MustNewConstMetric_cases, Hn.
  repeat split.
Qed.

Lemma Collect_panics_before_health_witness :
  returned (Collect healthy (fresh labelled)) = false
  /\ ch (final (Collect healthy (fresh labelled))) = ch (fresh labelled)
  /\ calls (final (Collect healthy (fresh labelled)))
     = (calls (fresh labelled) ++ ["GetVPNSummary"])%list
  /\ closed (final (Collect healthy (fresh labelled))) = S (closed (fresh labelled)).
Proof.
  apply (Collect_panics_before_health healthy (fresh labelled) summary7 eq_refl).
  intros [_ H]. discriminate H.
Defined.

(** X11. An exporter whose health descriptor is unusable never reports
    health: against every endpoint its scrape panics, and no sample built
    from the health descriptor reaches the channel. *)
Theorem Collect_unusable_health remote s :
  ~ usable (openvpnUpDesc (self s)) ->
  returned (Collect remote s) = false
  /\ exists l,
       ch (final (Collect remote s)) = (ch s ++ l)%list
       /\ Forall (fun m => desc m <> openvpnUpDesc (self s)) l.
Proof.
  intros Hn. scrape remote s; usability; try contradiction;
    (split; [reflexivity|]);
    rewrite <- ?app_assoc; cbn [app];
    (eexists; split; [first [reflexivity | symmetry; apply app_nil_r]|]);
    repeat (apply Forall_cons;
            [cbn [desc gauge]; intros Heq; rewrite Heq in *; contradiction|]);
    apply Forall_nil.
Qed.

Lemma Collect_unusable_health_witness :
  returned (Collect healthy (fresh misnamed)) = false
  /\ exists l,
       ch (final (Collect healthy (fresh misnamed))) = (ch (fresh misnamed) ++ l)%list
       /\ Forall (fun m => desc m <> openvpnUpDesc (self (fresh misnamed))) l.
Proof.
  apply (Collect_unusable_health healthy (fresh misnamed)).
  intros [H _]. discriminate H.
Defined.

(** ** Every 64-bit integer converts to a finite binary64 *)

Lemma digits2_pos_le p k :
  0 <= k -> Zpos p < 2 ^ k -> Zpos (digits2_pos p) <= k.
Proof.
  intros Hk H. rewrite digits2_pos_size.
  destruct (Z_le_gt_dec (Zpos (Pos.size p)) k) as [|Hgt]; [assumption|exfalso].
  pose proof (Pos.size_le p) as Hle.
  apply Pos2Z.pos_le_pos in Hle.
  rewrite Pos2Z.inj_pow, (Pos2Z.inj_xO p) in Hle.
  assert (Hmono : 2 ^ (k + 1) <= 2 ^ Zpos (Pos.size p)).
  { apply Z.pow_le_mono_r; [reflexivity | clear - Hgt; lia]. }
  rewrite Z.pow_add_r, Z.pow_1_r in Hmono by lia.
  generalize dependent (2 ^ Zpos (Pos.size p)).
  generalize dependent (2 ^ k). intros; lia.
Qed.

Lemma Zdigits2_le m k : 0 <= k -> 0 <= m < 2 ^ k -> Zdigits2 m <= k.
Proof.
  intros Hk [H0 H]. destruct m as [|p|p]; cbn [Zdigits2]; try lia.
  apply digits2_pos_le; assumption.
Qed.

Lemma shr_1_bounds mrs :
  0 <= shr_m mrs -> 0 <= shr_m (shr_1 mrs) <= shr_m mrs.
Proof.
  destruct mrs as [m r s]. destruct m as [|[p|p|]|p]; cbn; lia.
Qed.

Lemma iter_shr_1_bounds k : forall mrs,
  0 <= shr_m mrs -> 0 <= shr_m (iter_pos shr_1 k mrs) <= shr_m mrs.
Proof.
  induction k as [k IH|k IH|]; intros mrs H; cbn [iter_pos].
  - pose proof (shr_1_bounds mrs H) as H1.
    pose proof (IH _ (proj1 H1)) as H2.
    pose proof (IH _ (proj1 H2)) as H3. lia.
  - pose proof (IH _ H) as H1.
    pose proof (IH _ (proj1 H1)) as H2. lia.
  - apply shr_1_bounds. exact H.
Qed.

Lemma shr_bounds mrs e n :
  0 <= shr_m mrs ->
  0 <= shr_m (fst (shr mrs e n)) <= shr_m mrs
  /\ (snd (shr mrs e n) = e \/ snd (shr mrs e n) = e + n).
Proof.
  intros H. unfold shr. destruct n as [|k|k]; cbn [fst snd]; try (split; [lia|tauto]).
  split; [apply iter_shr_1_bounds; exact H|tauto].
Qed.

Lemma round_nearest_even_bounds m l :
  0 <= m -> 0 <= round_nearest_even m l <= m + 1.
Proof.
  intros H. unfold round_nearest_even.
  destruct l as [|[| |]]; try lia. destruct (Z.even m); lia.
Qed.

(** Rounding a mantissa of at most 64 bits at a small exponent does not
    overflow. *)
Lemma binary_round_aux_finite s m e :
  0 < m <= 2 ^ 63 -> 0 <= e <= 64 ->
  finite (binary_round_aux 53 1024 s m e loc_Exact) = true.
Proof.
  intros Hm He. unfold binary_round_aux, shr_fexp.
  cbn [shr_record_of_loc].
  set (n1 := fexp 53 1024 (Zdigits2 m + e) - e).
  pose proof (shr_bounds (Build_shr_record m false false) e n1) as H1.
  destruct (shr (Build_shr_record m false false) e n1) as [mrs1 e1].
  cbn [fst snd shr_m] in H1. destruct H1 as [Hm1 He1]; [lia|].
  pose proof (round_nearest_even_bounds (shr_m mrs1) (loc_of_shr_record mrs1)
                (proj1 Hm1)) as Hr.
  set (m2 := round_nearest_even (shr_m mrs1) (loc_of_shr_record mrs1)) in *.
  set (n2 := fexp 53 1024 (Zdigits2 m2 + e1) - e1).
  pose proof (shr_bounds (Build_shr_record m2 false false) e1 n2) as H2.
  destruct (shr (Build_shr_record m2 false false) e1 n2) as [mrs2 e2].
  cbn [fst snd shr_m] in H2. destruct H2 as [Hm2 He2]; [lia|].
  assert (Hd : Zdigits2 m <= 64).
  { apply Zdigits2_le; [lia|]. change (2 ^ 64) with (2 * 2 ^ 63). lia. }
  assert (Hd2 : Zdigits2 m2 <= 65).
  { apply Zdigits2_le; [lia|]. change (2 ^ 65) with (4 * 2 ^ 63). lia. }
  assert (Hd0 : 0 <= Zdigits2 m) by (destruct m; cbn; lia).
  assert (Hd20 : 0 <= Zdigits2 m2) by (destruct m2; cbn; lia).
  assert (He1' : e1 <= 128).
  { subst n1. unfold fexp, emin in He1. lia. }
  assert (He2' : e2 <= 256).
  { subst n2. unfold fexp, emin in He2. lia. }
  destruct (shr_m mrs2) as [|q|q]; [reflexivity| |lia].
  destruct (Z.leb_spec e2 (1024 - 53)); [reflexivity|lia].
Qed.

Lemma binary_round_finite s p :
  Zpos p <= 2 ^ 63 -> finite (binary_round 53 1024 s p 0) = true.
Proof.
  intros Hp.
  destruct (Z_le_gt_dec (Zpos (digits2_pos p)) 53) as [Hd|Hd].
  - destruct (binary_round_small s p Hd) as (m & e & -> & _). reflexivity.
  - unfold binary_round, fexp, emin, shl_align.
    replace (Z.max (Zpos (digits2_pos p) + 0 - 53) (3 - 1024 - 53) - 0)
      with (Zpos (digits2_pos p) - 53) by lia.
    destruct (Zpos (digits2_pos p) - 53) as [|k|k] eqn:Hk; try lia.
    apply binary_round_aux_finite; lia.
Qed.

(** The [float64] conversion of a 64-bit integer is a finite number. *)
Lemma of_int_finite n : is_int n -> finite (Float64.of_int n) = true.
Proof.
  intros [Hlo Hhi].
  unfold Float64.of_int, Float64.prec, Float64.emax, binary_normalize.
  destruct n as [|p|p]; [reflexivity| |]; apply binary_round_finite; lia.
Qed.

(** X12. When the decoded fields are 64-bit integers, as Go's [int] is,
    every sample a scrape appends has a finite value, never NaN and never
    an infinity: the [float64] conversions do not overflow. *)
Theorem Collect_values_finite remote s :
  Forall usable (descriptors (self s)) ->
  (forall r1, call1 remote (self s) = inr r1 -> is_int (NClients r1)) ->
  (forall r2, call2 remote (self s) = inr r2 ->
     is_int (LastSuccessfulUpdate r2) /\ is_int (CurrentCc r2)
     /\ is_int (MaxCc r2) /\ is_int (FallbackCc r2)) ->
  exists l,
    ch (final (Collect remote s)) = (ch s ++ l)%list
    /\ Forall (fun m => finite (val m) = true) l.
Proof.
  intros Hu H1 H2. rewrite (Collect_runs remote (self s) Hu s eq_refl).
  eexists. split; [reflexivity|]. unfold ending.
  destruct (call1 remote (self s)) as [err1|r1];
    [repeat constructor|].
  specialize (H1 r1 eq_refl).
  destruct (call2 remote (self s)) as [err2|r2].
  - repeat constructor. apply of_int_finite. exact H1.
  - destruct (H2 r2 eq_refl) as (Ha & Hb & Hc & Hd).
    cbn [sent subscription_samples connected_clients_sample app].
    repeat (apply Forall_cons;
            [cbn [val gauge]; first [apply of_int_finite; assumption | reflexivity]|]).
    apply Forall_nil.
Qed.

Lemma Collect_values_finite_witness :
  exists l,
    ch (final (Collect healthy (used exporter0))) = (ch (used exporter0) ++ l)%list
    /\ Forall (fun m => finite (val m) = true) l.
Proof.
  apply (Collect_values_finite healthy (used exporter0)).
  - repeat constructor.
  - intros r1 H. injection H as <-. split; [discriminate|reflexivity].
  - intros r2 H. injection H as <-.
    repeat split; first [discriminate | reflexivity].
Defined.
